(** * AI Search Optimization Evaluator: the evaluation pipeline of app.py

    A shallow embedding of src/app.py.  Python strings are sequences of
    Unicode code points, Python integers are unbounded ([Z]), exceptions
    are an explicit result type, and the text generation pipeline, the
    HTTP client and the HTML parser are parameters of the model. *)

From Stdlib Require Import List NArith ZArith Lia Bool Ascii String.
From Stdlib Require DecimalString.
Import ListNotations.

Set Implicit Arguments.

(** ** Python strings *)

Module PyStr.

(** A [str] is a sequence of code points. *)
Definition char := N.
Definition str := list char.

(** An ASCII literal of the source, as a [str]. *)
Definition str_of (s : string) : str :=
  map N_of_ascii (list_ascii_of_string s).

Definition in_ranges (rs : list (N * N)) (c : char) : bool :=
  existsb (fun r => (fst r <=? c)%N && (c <=? snd r)%N) rs.

(** Code points of Numeric_Type=Decimal (category Nd), Unicode 14.0.0.
    Every range starts at a digit zero and its digits are consecutive. *)
Definition decimal_ranges : list (N * N) :=
  [ (48, 57); (1632, 1641); (1776, 1785); (1984, 1993);
    (2406, 2415); (2534, 2543); (2662, 2671); (2790, 2799);
    (2918, 2927); (3046, 3055); (3174, 3183); (3302, 3311);
    (3430, 3439); (3558, 3567); (3664, 3673); (3792, 3801);
    (3872, 3881); (4160, 4169); (4240, 4249); (6112, 6121);
    (6160, 6169); (6470, 6479); (6608, 6617); (6784, 6793);
    (6800, 6809); (6992, 7001); (7088, 7097); (7232, 7241);
    (7248, 7257); (42528, 42537); (43216, 43225); (43264, 43273);
    (43472, 43481); (43504, 43513); (43600, 43609); (44016, 44025);
    (65296, 65305); (66720, 66729); (68912, 68921); (69734, 69743);
    (69872, 69881); (69942, 69951); (70096, 70105); (70384, 70393);
    (70736, 70745); (70864, 70873); (71248, 71257); (71360, 71369);
    (71472, 71481); (71904, 71913); (72016, 72025); (72784, 72793);
    (73040, 73049); (73120, 73129); (92768, 92777); (92864, 92873);
    (93008, 93017); (120782, 120831); (123200, 123209); (123632, 123641);
    (125264, 125273); (130032, 130041) ]%N.

(** Code points of Numeric_Type=Digit that are not decimal: superscripts,
    subscripts, circled and parenthesised digits and the like. *)
Definition other_digit_ranges : list (N * N) :=
  [ (178, 179); (185, 185); (4969, 4977); (6618, 6618);
    (8304, 8304); (8308, 8313); (8320, 8329); (9312, 9320);
    (9332, 9340); (9352, 9360); (9450, 9450); (9461, 9469);
    (9471, 9471); (10102, 10110); (10112, 10120); (10122, 10130);
    (68160, 68163); (69216, 69224); (69714, 69722); (127232, 127242) ]%N.

(** [str.isdecimal] on one character. *)
Definition isdecimal (c : char) : bool := in_ranges decimal_ranges c.

(** [str.isdigit] on one character: Numeric_Type Digit or Decimal. *)
Definition isdigit (c : char) : bool :=
  isdecimal c || in_ranges other_digit_ranges c.

(** The value of a decimal digit, as [int] reads it. *)
Definition decimal_value (c : char) : option Z :=
  match find (fun r => (fst r <=? c)%N && (c <=? snd r)%N) decimal_ranges with
  | Some (lo, _) => Some (Z.of_N ((c - lo) mod 10))
  | None => None
  end.

(** White space as [str.strip] sees it. *)
Definition space_ranges : list (N * N) :=
  [ (9, 13); (28, 32); (133, 133); (160, 160); (5760, 5760);
    (8192, 8202); (8232, 8233); (8239, 8239); (8287, 8287);
    (12288, 12288) ]%N.

Definition isspace (c : char) : bool := in_ranges space_ranges c.

Fixpoint lstrip (s : str) : str :=
  match s with
  | c :: r => if isspace c then lstrip r else s
  | [] => []
  end.

Definition rstrip (s : str) : str := rev (lstrip (rev s)).

(** [s.strip()] *)
Definition strip (s : str) : str := rstrip (lstrip s).

(** Line boundaries of [str.splitlines]: LF, VT, FF, CR, FS, GS, RS, NEL,
    LS and PS; CR LF counts as one. *)
Definition islinebreak (c : char) : bool :=
  existsb (N.eqb c) [10; 11; 12; 13; 28; 29; 30; 133; 8232; 8233]%N.

(** [cur] holds the characters of the line being read, last one first. *)
Fixpoint splitlines_from (cur : str) (s : str) : list str :=
  match s with
  | [] => match cur with [] => [] | _ => [rev cur] end
  | c :: rest =>
      if (c =? 13)%N then
        match rest with
        | d :: rest' =>
            if (d =? 10)%N then rev cur :: splitlines_from [] rest'
            else rev cur :: splitlines_from [] rest
        | [] => rev cur :: splitlines_from [] rest
        end
      else if islinebreak c then rev cur :: splitlines_from [] rest
      else splitlines_from (c :: cur) rest
  end.

(** [s.splitlines()] *)
Definition splitlines (s : str) : list str := splitlines_from [] s.

Fixpoint startswith (p s : str) : bool :=
  match p, s with
  | [], _ => true
  | a :: p', b :: s' => (a =? b)%N && startswith p' s'
  | _ :: _, [] => false
  end.

(** [p in s] *)
Fixpoint contains (p s : str) : bool :=
  startswith p s ||
  match s with
  | [] => false
  | _ :: s' => contains p s'
  end.

(** [sep.join(parts)] *)
Fixpoint join (sep : str) (parts : list str) : str :=
  match parts with
  | [] => []
  | [p] => p
  | p :: ps => p ++ sep ++ join sep ps
  end.

(** [str(n)] for an integer [n >= 0]. *)
Definition str_N (n : N) : str := str_of (DecimalString.NilZero.string_of_uint (N.to_uint n)).

(** [range(a, b)] *)
Definition range (a b : nat) : list N := map N.of_nat (seq a (b - a)).

End PyStr.
Export PyStr.

(** ** Exceptions and integers *)

(** The exceptions the script can meet.  [Exception msg] is any exception
    raised by a collaborator (the generation pipeline, the HTTP client,
    the HTML parser); [msg] is its [str(e)]. *)
Inductive exn : Type :=
| ValueError
| OverflowError
| ZeroDivisionError
| Exception (msg : str).

Inductive result (A : Type) : Type :=
| Ok (a : A)
| Raise (e : exn).
Arguments Ok {A} a.
Arguments Raise {A} e.

Module PyInt.

(** The decimal values of the characters of [s], when all are decimal. *)
Fixpoint decimal_values (s : str) : option (list Z) :=
  match s with
  | [] => Some []
  | c :: r =>
      match decimal_value c, decimal_values r with
      | Some d, Some ds => Some (d :: ds)
      | _, _ => None
      end
  end.

(** Horner evaluation of a digit sequence in base ten. *)
Definition of_digits (ds : list Z) : Z :=
  fold_left (fun acc d => 10 * acc + d)%Z ds 0%Z.

(** CPython applies the conversion limit only above this many digits. *)
Definition max_str_digits_threshold : nat := 640.

(** [lim] is [sys.get_int_max_str_digits()]: 0 switches the limit off,
    the default is 4300. *)
Definition exceeds_limit (lim n : nat) : bool :=
  (max_str_digits_threshold <? n) && (0 <? lim) && (lim <? n).

(** [int(s)] for a string without white space, sign or underscore, which
    is what [filter(str.isdigit, ...)] leaves: an empty string, a character
    that is not a decimal digit, or too many digits raise ValueError. *)
Definition int (lim : nat) (s : str) : result Z :=
  match s with
  | [] => Raise ValueError
  | _ =>
      match decimal_values s with
      | None => Raise ValueError
      | Some ds =>
          if exceeds_limit lim (List.length s) then Raise ValueError
          else Ok (of_digits ds)
      end
  end.

End PyInt.

(** ** Floats: true division of integers and the [.1f] format *)

Module PyFloat.

(** A finite binary64 number: [mant * 2^expo], negated when [neg]. *)
Record float : Type := mkFloat { neg : bool; mant : Z; expo : Z }.

(** [num / den] rounded to an integer, ties to even ([den > 0]). *)
Definition round_half_even (num den : Z) : Z :=
  let q := (num / den)%Z in
  let r := (num mod den)%Z in
  if (den <? 2 * r)%Z then (q + 1)%Z
  else if (2 * r =? den)%Z then (if Z.even q then q else q + 1)%Z
  else q.

(** [a * 2^(-e) / b] as a fraction of integers. *)
Definition scaled (a b e : Z) : Z * Z :=
  if (0 <=? e)%Z then (a, b * 2 ^ e)%Z else (a * 2 ^ (- e), b)%Z.

(** The exponent of the binary64 number nearest to [a / b], for
    [a, b > 0]: the quotient scaled by it has 53 bits, unless the
    number is subnormal. *)
Definition quotient_exponent (a b : Z) : Z :=
  let e := (Z.log2 a - Z.log2 b - 52)%Z in
  let (n, d) := scaled a b e in
  let e' := if (n / d <? 2 ^ 52)%Z then (e - 1)%Z else e in
  Z.max e' (-1074).

(** [a / b] on integers: the correctly rounded quotient, OverflowError
    when it reaches [2^1024]. *)
Definition true_divide (a b : Z) : result float :=
  if (b =? 0)%Z then Raise ZeroDivisionError
  else
    let sign := xorb (a <? 0)%Z (b <? 0)%Z in
    if (a =? 0)%Z then Ok (mkFloat sign 0 0)
    else
      let e := quotient_exponent (Z.abs a) (Z.abs b) in
      let (n, d) := scaled (Z.abs a) (Z.abs b) e in
      let m := round_half_even n d in
      if (1024 <=? Z.log2 m + e)%Z then Raise OverflowError
      else Ok (mkFloat sign m e).

(** [format(x, ".1f")]: the exact value rounded to one decimal, ties to
    even. *)
Definition format_1f (x : float) : str :=
  let (n, d) := scaled (10 * mant x) 1 (- expo x) in
  let t := round_half_even n d in
  (if neg x then str_of "-" else [])
    ++ str_N (Z.to_N (t / 10)) ++ str_of "." ++ str_N (Z.to_N (t mod 10)).

End PyFloat.

(** ** The scoring metrics *)

Record Principle : Type := mkPrinciple {
  title : str;
  description : str;
  prompt : str
}.

Definition principles : list Principle :=
  [ mkPrinciple
      (str_of "Chunk-Level Retrieval")
      (str_of "Is each section self-contained and focused on one topic?")
      (str_of "Analyze if the content contains semantically complete chunks that are self-contained and independently understandable. Does each section focus on a single idea? Rate 0-10 and explain.");
    mkPrinciple
      (str_of "Answer Synthesis Optimization")
      (str_of "Is the answer easy to extract and fit into multi-source AI answers?")
      (str_of "Evaluate if the content is structured with a summary followed by elaboration, plain tone, and Q&A format. Rate 0-10 and explain.");
    mkPrinciple
      (str_of "Citation-Worthiness")
      (str_of "Does the content look trustworthy and fact-based?")
      (str_of "Check if content includes citations, author credentials, accurate claims, and timestamps. Rate 0-10 and explain.");
    mkPrinciple
      (str_of "Topical Breadth & Depth")
      (str_of "Does the site use hub-cluster model to fully cover a topic?")
      (str_of "Assess if the content follows a pillar-and-cluster approach, linking to detailed subtopics. Rate 0-10 and explain.");
    mkPrinciple
      (str_of "Multi-Modal Support")
      (str_of "Are visuals and tables machine-readable and helpful?")
      (str_of "Evaluate if the content uses HTML tables, descriptive alt text, <figure> markup, and captions for images. Rate 0-10 and explain.");
    mkPrinciple
      (str_of "Authoritativeness Signals")
      (str_of "Is there clear EEAT (expertise, authority, trust) in the content?")
      (str_of "Check for expert bylines, original data, external mentions, structured metadata, and citations. Rate 0-10 and explain.");
    mkPrinciple
      (str_of "Personalization Resilience")
      (str_of "Does the content serve diverse intents, personas, or regions?")
      (str_of "Analyze if content targets multiple personas, intents, and locales with segmented sections. Rate 0-10 and explain.");
    mkPrinciple
      (str_of "AI Crawlability & Indexability")
      (str_of "Is the content accessible and indexable by AI bots?")
      (str_of "Evaluate if content is server-rendered, allows AI bots via robots.txt, and avoids noindex/nosnippet. Rate 0-10 and explain.") ].

(** ** Score extraction (app.py, lines 97 and 98) *)

(** [any(str(n) in line for n in range(0, 11))] *)
Definition mentions_number (line : str) : bool :=
  existsb (fun n => contains (str_N n) line) (range 0 11).

(** [next((line for line in reply.splitlines() if ...), "Score: 0")] *)
Definition score_line (reply : str) : str :=
  match find mentions_number (splitlines reply) with
  | Some line => line
  | None => str_of "Score: 0"
  end.

(** [int(''.join(filter(str.isdigit, score_line)))
     if any(char.isdigit() for char in score_line) else 0] *)
Definition score_of_line (lim : nat) (line : str) : result Z :=
  if existsb isdigit line then PyInt.int lim (filter isdigit line)
  else Ok 0%Z.

Definition extract_score (lim : nat) (reply : str) : result Z :=
  score_of_line lim (score_line reply).

(** The line has no digit character besides 0 to 9. *)
Definition ascii_digits_only (line : str) : bool :=
  forallb (fun c => implb (isdigit c) ((48 <=? c)%N && (c <=? 57)%N)) line.

(** ** The rules as the specification words them *)

Module Spec.

(** The decimal strings "0" through "10". *)
Definition numbers : list str :=
  map str_of ["0"; "1"; "2"; "3"; "4"; "5"; "6"; "7"; "8"; "9"; "10"]%string.


(** The digit characters 0 to 9. *)
Definition digit (c : char) : bool := (48 <=? c)%N && (c <=? 57)%N.

(** The digit characters of the line, concatenated in order and read as
    one integer; 0 when the line has none. *)
Fixpoint number_of (acc : Z) (line : str) : Z :=
  match line with
  | [] => acc
  | c :: r =>
      if digit c then number_of (10 * acc + Z.of_N (c - 48))%Z r
      else number_of acc r
  end.


(** The prompt as the literal concatenation of the two labels, the content
    and the instruction. *)
Definition combined_prompt (content instruction : str) : str :=
  str_of "Content:" ++ content ++ str_of "Instruction:" ++ instruction.

(** The mean [total / count] written with one decimal, the nearest one,
    a tie going to the even digit. *)
Definition mean_1f (total count : Z) : str :=
  let t := PyFloat.round_half_even (10 * total) count in
  str_N (Z.to_N (t / 10)) ++ str_of "." ++ str_N (Z.to_N (t mod 10)).

End Spec.

(** ** Stand-ins for the collaborators *)

(** An HTTP response, as far as the script and [raise_for_status] read
    it. *)
Record Response : Type := mkResponse {
  status_code : N;
  reason : str;
  url : str;
  text : str
}.

(** The message of the HTTPError of [raise_for_status]. *)
Definition http_error (r : Response) : str :=
  str_N (status_code r)
    ++ (if (status_code r <? 500)%N then str_of " Client Error: "
        else str_of " Server Error: ")
    ++ reason r ++ str_of " for url: " ++ url r.

(** [response.raise_for_status()] (line 66) as requests defines it: an
    HTTPError for a status from 400 to 599, nothing for any other status.
    The exception is given as [inl (str(e))]. *)
Definition raise_for_status (r : Response) : str + unit :=
  if (400 <=? status_code r)%N && (status_code r <? 600)%N
  then inl (http_error r) else inr tt.

Module Stub.

(** A generator that answers every prompt with [reply]. *)
Definition constant (reply : str) (m : unit) (p : str) (n : N)
  : result str * unit := (Ok reply, m).

(** A generator that returns the prompt followed by a verdict, as the
    pipeline does with its default [return_full_text]. *)
Definition echo (m : unit) (p : str) (n : N) : result str * unit :=
  (Ok (p ++ [10%N] ++ str_of "Score: 7"), m).

(** A generator that counts its calls and raises on call number [k]
    (from 0); the other calls answer "Score: 7". *)
Definition fails_at (k : nat) (m : nat) (p : str) (n : N)
  : result str * nat :=
  if Nat.eqb m k then (Raise (Exception (str_of "CUDA out of memory")), S m)
  else (Ok (str_of "Score: 7"), S m).

(** A generator whose call number [i] answers [nth i replies]. *)
Definition scripted (replies : list str) (m : nat) (p : str) (n : N)
  : result str * nat := (Ok (nth m replies []), S m).

(** A host that cannot be reached. *)
Definition unreachable (n : unit) (url ua : str) (timeout : N)
  : (str + Response) * unit := (inl (str_of "Connection refused"), n).


(** A parser that takes every line of the text for a string of the page. *)
Definition stripped_strings (t : str) : str + list str := inr (splitlines t).

(** A table widget that cannot show an integer of 64 bits or more. *)
Definition st_dataframe (rows : list (str * Z)) : str + unit :=
  if forallb (fun row => (snd row <? 2 ^ 64)%Z) rows then inr tt
  else inl (str_of "integer out of range for the table").

End Stub.

(** ** The interpreter state and the collaborators *)

Section App.

(** [sys.get_int_max_str_digits()] of the interpreter that runs the script. *)
Variable max_str_digits : nat.

(** The text generation pipeline object: its state, how it is built and
    what a call [generator(prompt, max_new_tokens=n)[0]['generated_text']]
    does (a reply or an exception, and the next state). *)
Variable Model : Type.
Variable pipeline : Model.
Variable generate : Model -> str -> N -> result str * Model.

(** The HTTP client and the HTML parser.  A call either returns or raises
    an exception [e], given as [inl (str(e))].  [requests_get net url ua t]
    is [requests.get(url, headers={"User-Agent": ua}, timeout=t)];
    [stripped_strings text] is the list [soup.stripped_strings] of
    [BeautifulSoup(text, "html.parser")] once its script and style
    elements are decomposed. *)
Variable Net : Type.
Variable requests_get : Net -> str -> str -> N -> (str + Response) * Net.
Variable stripped_strings : str -> str + list str.

(** The table widget: [st_dataframe rows] is
    [st.dataframe(df[['Principle', 'Score']].set_index('Principle'),
    use_container_width=True)] for the frame with these rows (lines 110 and
    113); it either draws the table or raises. *)
Variable st_dataframe : list (str * Z) -> str + unit.

(** The module globals of the script, with two ghost fields: the calls
    made to the generator so far and how often a model was built. *)
Record world : Type := mkWorld {
  generator : Model;
  catalog : list Principle;
  calls : list (str * N);
  loads : nat;
  net : Net
}.

(** Computations of the script: state passing with exceptions. *)
Definition M (A : Type) : Type := world -> result A * world.

Definition ret {A} (a : A) : M A := fun w => (Ok a, w).

Definition bind {A B} (m : M A) (k : A -> M B) : M B :=
  fun w =>
    match m w with
    | (Ok a, w') => k a w'
    | (Raise e, w') => (Raise e, w')
    end.

Definition lift {A} (r : result A) : M A := fun w => (r, w).

Notation "x <- m ;; k" := (bind m (fun x => k))
  (at level 61, m at next level, right associativity).
Notation "m ;; k" := (bind m (fun _ => k))
  (at level 61, right associativity).

(** [generator(full_prompt, max_new_tokens=n)[0]['generated_text']] *)
Definition call_generator (full_prompt : str) (n : N) : M str :=
  fun w =>
    let (r, m') := generate (generator w) full_prompt n in
    (r, mkWorld m' (catalog w) (calls w ++ [(full_prompt, n)]) (loads w) (net w)).

(** ** The evaluation pipeline (app.py, lines 92 to 104) *)

Record EvaluationResult : Type := mkResult {
  principle_title : str;   (* key "Principle" *)
  score : Z;               (* key "Score" *)
  explanation : str        (* key "Explanation" *)
}.

Definition LF : str := [10%N].

(** [f"Content:\n{content}\n\nInstruction:\n{p['prompt']}"] *)
Definition full_prompt (content : str) (p : Principle) : str :=
  str_of "Content:" ++ LF ++ content ++ LF ++ LF
    ++ str_of "Instruction:" ++ LF ++ prompt p.

(** One turn of the loop body. *)
Definition evaluate_principle (content : str) (p : Principle)
  : M EvaluationResult :=
  reply <- call_generator (full_prompt content p) 256 ;;
  s <- lift (extract_score max_str_digits reply) ;;
  ret (mkResult (title p) s (strip reply)).

(** The [for] loop over the catalog, [results] being the list built so far. *)
Fixpoint evaluate_loop (content : str) (ps : list Principle)
    (results : list EvaluationResult) : M (list EvaluationResult) :=
  match ps with
  | [] => ret results
  | p :: ps' =>
      r <- evaluate_principle content p ;;
      evaluate_loop content ps' (results ++ [r])
  end.

Definition evaluate_content (content : str) : M (list EvaluationResult) :=
  fun w => evaluate_loop content (catalog w) [] w.

(** ** Scraping (app.py, lines 62 to 73) *)

(** The body of the [try]. *)
Definition scrape_try (url : str) (n : Net) : (str + str) * Net :=
  match requests_get n url (str_of "Mozilla/5.0") 10 with
  | (inl e, n') => (inl e, n')
  | (inr response, n') =>
      match raise_for_status response with
      | inl e => (inl e, n')
      | inr _ =>
          match stripped_strings (text response) with
          | inl e => (inl e, n')
          | inr ts => (inr (join LF (map strip ts)), n')
          end
      end
  end.

(** [except Exception as e: return f"Error scraping URL: {e}"] *)
Definition scrape_url (url : str) (n : Net) : str * Net :=
  match scrape_try url n with
  | (inr page_text, n') => (page_text, n')
  | (inl e, n') => (str_of "Error scraping URL: " ++ e, n')
  end.

(** ** One run of the script *)

Inductive input_type : Type := Paste_Text | Scrape_from_URL.

(** What the widgets return in a run: the radio choice, the text area, the
    URL field and the button. *)
Record widgets : Type := mkWidgets {
  content_mode : input_type;
  text_area : str;
  text_input : str;
  evaluate : bool
}.

(** What the report part of a run draws. *)
Inductive element : Type :=
| Subheader (s : str)
| Dataframe (rows : list (str * Z))
| Markdown (s : str).

(** What a run shows when it reaches its end: the scraped text (URL mode,
    non-empty URL) and, when an evaluation ran, the elements of the report
    in the order they are drawn.  A run that raises shows no page here. *)
Record page : Type := mkPage {
  scraped_content : option str;
  report : option (list element)
}.

(** Lines 11 to 15.  Line 11 is the expression [st.cache_resource]; it is
    not applied to [load_model], so every call builds a pipeline. *)
Definition load_model : M Model :=
  fun w =>
    (Ok pipeline,
     mkWorld (generator w) (catalog w) (calls w) (S (loads w)) (net w)).

(** [sum(r['Score'] for r in scores)] *)
Definition total (scores : list EvaluationResult) : Z :=
  fold_left Z.add (map score scores) 0%Z.

(** [sum(r['Score'] for r in scores) / len(scores)] *)
Definition avg_score (scores : list EvaluationResult) : result PyFloat.float :=
  PyFloat.true_divide (total scores) (Z.of_nat (List.length scores)).

(** The overall line of the report (line 123); U+2705 is the check mark. *)
Definition overall_line (avg : PyFloat.float) : str :=
  str_of "### " ++ [9989%N] ++ str_of " Overall Content Score: **"
    ++ PyFloat.format_1f avg ++ str_of "/10**".

Definition nonempty (s : str) : bool :=
  match s with [] => false | _ :: _ => true end.

(** [str(n)] for an integer. *)
Definition str_Z (n : Z) : str :=
  if (n <? 0)%Z then str_of "-" ++ str_N (Z.to_N (- n)) else str_N (Z.to_N n).

(** The rows of [df[['Principle', 'Score']]]. *)
Definition summary_rows (scores : list EvaluationResult) : list (str * Z) :=
  map (fun row => (principle_title row, score row)) scores.

(** Lines 117 to 120 for one row.  [str] of a score stays within the
    conversion limit, the score having been read from no fewer digits. *)
Definition feedback (row : EvaluationResult) : list element :=
  [ Markdown (str_of "### " ++ principle_title row);
    Markdown (str_of "**Score:** " ++ str_Z (score row) ++ str_of "/10");
    Markdown (explanation row);
    Markdown (str_of "---") ].

(** The elements of lines 112 to 123; U+1F4CA and U+1F4DD are the signs of
    the two subheaders. *)
Definition report_elements (scores : list EvaluationResult)
    (avg : PyFloat.float) : list element :=
  [ Subheader ([128202%N] ++ str_of " Evaluation Summary Table");
    Dataframe (summary_rows scores);
    Subheader ([128221%N] ++ str_of " Detailed Feedback") ]
    ++ flat_map feedback scores
    ++ [ Markdown (overall_line avg) ].

(** Line 113: the table is drawn, or the run ends with what the widget
    raises. *)
Definition draw_dataframe (rows : list (str * Z)) : M unit :=
  lift (match st_dataframe rows with
        | inl e => Raise (Exception e)
        | inr _ => Ok tt
        end).

(** Lines 107 to 123, [if evaluate and input_content: ...], on the content
    [c]; [sc] is what the scraped content area shows. *)
Definition evaluate_and_show (ui : widgets) (c : str) (sc : option str)
  : M page :=
  if evaluate ui && nonempty c then
    scores <- evaluate_content c ;;
    draw_dataframe (summary_rows scores) ;;
    avg <- lift (avg_score scores) ;;
    ret (mkPage sc (Some (report_elements scores avg)))
  else ret (mkPage sc None).

(** The script from top to bottom: build the model (line 15), bind the
    catalog (line 18), read the widgets and acquire the content (lines 79
    to 87), evaluate and show (lines 107 to 123). *)
Definition script_run (ui : widgets) : M page :=
  m <- load_model ;;
  (fun w => (Ok tt, mkWorld m principles (calls w) (loads w) (net w))) ;;
  acquired <- (fun w =>
    match content_mode ui with
    | Paste_Text => (Ok (text_area ui, None), w)
    | Scrape_from_URL =>
        if nonempty (text_input ui) then
          let (c, n') := scrape_url (text_input ui) (net w) in
          (Ok (c, Some c),
           mkWorld (generator w) (catalog w) (calls w) (loads w) n')
        else (Ok ([], None), w)
    end) ;;
  evaluate_and_show ui (fst acquired) (snd acquired).

(** A process serves a sequence of runs; an exception ends a run, not the
    process. *)
Fixpoint session (uis : list widgets) (w : world) : list (result page) * world :=
  match uis with
  | [] => ([], w)
  | ui :: rest =>
      let (r, w') := script_run ui w in
      let (rs, w'') := session rest w' in
      (r :: rs, w'')
  end.

(** The characters of [s] before its first line boundary. *)
Fixpoint first_line (s : str) : str :=
  match s with
  | [] => []
  | c :: r => if islinebreak c then [] else c :: first_line r
  end.

(** The calls the loop makes for the principles [ps]. *)
Definition prompts (content : str) (ps : list Principle) : list (str * N) :=
  map (fun p => (full_prompt content p, 256%N)) ps.

(** ** Properties of the score extraction *)

Lemma numbers_rendered : map str_N (range 0 11) = Spec.numbers.
Proof. reflexivity. Qed.



Lemma digit_bounds c : Spec.digit c = true -> (48 <= c <= 57)%N.
Proof.
  unfold Spec.digit. intros H. apply andb_prop in H as [H1 H2].
  apply N.leb_le in H1. apply N.leb_le in H2. lia.
Qed.

Lemma digit_isdigit c : Spec.digit c = true -> isdigit c = true.
Proof.
  intros H. unfold isdigit, isdecimal, in_ranges, decimal_ranges.
  cbn [existsb fst snd]. unfold Spec.digit in H. rewrite H. reflexivity.
Qed.

Lemma digit_value c :
  Spec.digit c = true -> decimal_value c = Some (Z.of_N (c - 48)).
Proof.
  intros H. pose proof (digit_bounds c H) as B.
  unfold decimal_value, decimal_ranges. cbn [find fst snd].
  unfold Spec.digit in H. rewrite H.
  rewrite N.mod_small by lia. reflexivity.
Qed.

Lemma filter_ascii_digits line :
  ascii_digits_only line = true -> filter isdigit line = filter Spec.digit line.
Proof.
  unfold ascii_digits_only. induction line as [|c r IH]; simpl; [reflexivity|].
  intros H. apply andb_prop in H as [Hc Hr].
  fold (Spec.digit c) in Hc. specialize (IH Hr).
  destruct (Spec.digit c) eqn:D.
  - rewrite (digit_isdigit c D). now rewrite IH.
  - destruct (isdigit c); [discriminate | exact IH].
Qed.

Lemma decimal_values_digits line :
  PyInt.decimal_values (filter Spec.digit line)
  = Some (map (fun c => Z.of_N (c - 48)) (filter Spec.digit line)).
Proof.
  induction line as [|c r IH]; simpl; [reflexivity|].
  destruct (Spec.digit c) eqn:D; [|exact IH].
  simpl. rewrite (digit_value c D), IH. reflexivity.
Qed.

Lemma number_of_fold line : forall acc,
  fold_left (fun a d => 10 * a + d)%Z
    (map (fun c => Z.of_N (c - 48)) (filter Spec.digit line)) acc
  = Spec.number_of acc line.
Proof.
  induction line as [|c r IH]; intros acc; simpl; [reflexivity|].
  destruct (Spec.digit c); simpl; apply IH.
Qed.

Lemma existsb_filter_nil {A} (f : A -> bool) l :
  existsb f l = false -> filter f l = [].
Proof.
  induction l as [|a r IH]; simpl; [reflexivity|].
  destruct (f a); simpl; [discriminate | exact IH].
Qed.

Lemma score_of_line_ascii line :
  ascii_digits_only line = true ->
  PyInt.exceeds_limit max_str_digits (List.length (filter isdigit line)) = false ->
  score_of_line max_str_digits line = Ok (Spec.number_of 0%Z line).
Proof.
  intros Ha Hl. unfold score_of_line.
  pose proof (filter_ascii_digits line Ha) as F.
  destruct (existsb isdigit line) eqn:E.
  - unfold PyInt.int. rewrite Hl, F, decimal_values_digits.
    unfold PyInt.of_digits. rewrite number_of_fold.
    destruct (filter Spec.digit line) eqn:Fd; [|reflexivity].
    apply existsb_exists in E as [c [Hin Hc]].
    assert (In c (filter isdigit line)) as Hf by (apply filter_In; auto).
    rewrite F in Hf. destruct Hf.
  - rewrite <- (number_of_fold line 0%Z), <- F.
    now rewrite (existsb_filter_nil _ _ E).
Qed.

(** The digits read by [int] are not negative. *)
Lemma decimal_value_nonneg c d : decimal_value c = Some d -> (0 <= d)%Z.
Proof.
  unfold decimal_value.
  destruct (find _ decimal_ranges) as [[lo hi]|]; [|discriminate].
  intros H. inversion H. apply N2Z.is_nonneg.
Qed.

Lemma decimal_values_nonneg s : forall ds,
  PyInt.decimal_values s = Some ds -> Forall (fun d => 0 <= d)%Z ds.
Proof.
  induction s as [|c r IH]; simpl; intros ds H.
  - inversion H. constructor.
  - destruct (decimal_value c) as [d|] eqn:D; [|discriminate].
    destruct (PyInt.decimal_values r) as [ds'|]; [|discriminate].
    inversion H. constructor; [exact (decimal_value_nonneg c D) | now apply IH].
Qed.

Lemma of_digits_nonneg ds :
  Forall (fun d => 0 <= d)%Z ds -> (0 <= PyInt.of_digits ds)%Z.
Proof.
  unfold PyInt.of_digits.
  assert (forall acc, (0 <= acc)%Z -> Forall (fun d => 0 <= d)%Z ds ->
            (0 <= fold_left (fun a d => 10 * a + d) ds acc)%Z) as G.
  { induction ds as [|d r IH]; cbn [fold_left]; intros acc Hacc H;
      [exact Hacc|].
    inversion H as [|d' r' Hd Hr]; subst. cbv beta in Hd.
    apply IH; [lia | assumption]. }
  apply G. lia.
Qed.

Lemma extract_score_nonneg reply s :
  extract_score max_str_digits reply = Ok s -> (0 <= s)%Z.
Proof.
  unfold extract_score, score_of_line.
  destruct (existsb isdigit (score_line reply)).
  - unfold PyInt.int.
    destruct (filter isdigit (score_line reply)) as [|c r]; [discriminate|].
    destruct (PyInt.decimal_values (c :: r)) as [ds|] eqn:D; [|discriminate].
    destruct (PyInt.exceeds_limit _ _); [discriminate|].
    intros H. inversion H. apply of_digits_nonneg.
    exact (decimal_values_nonneg _ D).
  - intros H. inversion H. lia.
Qed.

(** ** Properties of the evaluation loop *)

Lemma evaluate_principle_run content p w :
  evaluate_principle content p w =
  let w' m' := mkWorld m' (catalog w)
                 (calls w ++ [(full_prompt content p, 256%N)])
                 (loads w) (net w) in
  match generate (generator w) (full_prompt content p) 256 with
  | (Ok reply, m') =>
      match extract_score max_str_digits reply with
      | Ok s => (Ok (mkResult (title p) s (strip reply)), w' m')
      | Raise e => (Raise e, w' m')
      end
  | (Raise e, m') => (Raise e, w' m')
  end.
Proof.
  unfold evaluate_principle, bind, call_generator, lift, ret.
  destruct (generate (generator w) (full_prompt content p) 256)
    as [[reply|e] m']; [|reflexivity].
  destruct (extract_score max_str_digits reply); reflexivity.
Qed.

Lemma evaluate_principle_frame content p w r w' :
  evaluate_principle content p w = (r, w') ->
  catalog w' = catalog w /\ loads w' = loads w /\ net w' = net w /\
  calls w' = calls w ++ [(full_prompt content p, 256%N)] /\
  match r with
  | Ok x => principle_title x = title p /\ (0 <= score x)%Z
  | Raise _ => True
  end.
Proof.
  rewrite evaluate_principle_run. cbv zeta.
  destruct (generate (generator w) (full_prompt content p) 256)
    as [[reply|e] m'].
  - destruct (extract_score max_str_digits reply) as [s|e] eqn:E;
      intros H; inversion H; subst; cbn; repeat split; auto.
    exact (extract_score_nonneg _ E).
  - intros H; inversion H; subst; cbn; repeat split; auto.
Qed.

Lemma evaluate_loop_cons content p ps acc w :
  evaluate_loop content (p :: ps) acc w =
  match evaluate_principle content p w with
  | (Ok r, w') => evaluate_loop content ps (acc ++ [r]) w'
  | (Raise e, w') => (Raise e, w')
  end.
Proof. reflexivity. Qed.

Lemma evaluate_loop_inv content : forall ps acc w r w',
  evaluate_loop content ps acc w = (r, w') ->
  catalog w' = catalog w /\ loads w' = loads w /\ net w' = net w /\
  exists k, k <= List.length ps /\
    calls w' = calls w ++ prompts content (firstn k ps) /\
    match r with
    | Ok rs =>
        k = List.length ps /\
        exists new, rs = acc ++ new /\
          map principle_title new = map title ps /\
          Forall (fun x => 0 <= score x)%Z new
    | Raise _ => True
    end.
Proof.
  induction ps as [|p ps IH]; intros acc w r w' H.
  - inversion H; subst. repeat split. exists 0. cbn.
    rewrite !app_nil_r. repeat split; auto. exists []. now rewrite app_nil_r.
  - rewrite evaluate_loop_cons in H.
    destruct (evaluate_principle content p w) as [[x|e] w1] eqn:E.
    + apply evaluate_principle_frame in E as (Hc & Hl & Hn & Hcalls & Ht & Hs).
      apply IH in H as (Hc' & Hl' & Hn' & k & Hk & Hcalls' & Hr).
      repeat split; try congruence.
      exists (S k). split; [cbn; lia|]. split.
      * rewrite Hcalls', Hcalls, <- app_assoc. reflexivity.
      * destruct r as [rs|]; [|exact I].
        destruct Hr as (-> & new & -> & Hm & Hf). split; [reflexivity|].
        exists (x :: new). rewrite <- app_assoc. split; [reflexivity|].
        split; [cbn; congruence | constructor; assumption].
    + apply evaluate_principle_frame in E as (Hc & Hl & Hn & Hcalls & _).
      inversion H; subst. repeat split; auto.
      exists 1. split; [cbn; lia|]. split; [|exact I].
      rewrite Hcalls. cbn. reflexivity.
Qed.

Lemma evaluate_loop_app content : forall ps1 ps2 acc w,
  evaluate_loop content (ps1 ++ ps2) acc w =
  match evaluate_loop content ps1 acc w with
  | (Ok rs, w') => evaluate_loop content ps2 rs w'
  | (Raise e, w') => (Raise e, w')
  end.
Proof.
  induction ps1 as [|p ps1 IH]; intros ps2 acc w; [reflexivity|].
  cbn [app]. rewrite !evaluate_loop_cons.
  destruct (evaluate_principle content p w) as [[x|e] w1]; [apply IH|reflexivity].
Qed.

(** A run that returns has one row per principle, in catalog order. *)
Lemma evaluate_content_complete content w rs w' :
  evaluate_content content w = (Ok rs, w') ->
  List.length rs = List.length (catalog w) /\
  map principle_title rs = map title (catalog w).
Proof.
  unfold evaluate_content. intros H.
  apply evaluate_loop_inv in H as (_ & _ & _ & k & _ & _ & _ & new & -> & Hm & _).
  cbn. split; [|exact Hm].
  rewrite <- (length_map principle_title), Hm. apply length_map.
Qed.

(** When every call the loop makes is answered and every answer has a
    score, the loop returns; [inv] holds of the states the generator goes
    through. *)
Lemma evaluate_loop_returns content (inv : Model -> Prop) ps :
  (forall m p, inv m -> In p ps ->
     exists reply m' s,
       generate m (full_prompt content p) 256 = (Ok reply, m') /\
       inv m' /\
       extract_score max_str_digits reply = Ok s) ->
  forall sub acc w,
    incl sub ps -> inv (generator w) ->
    exists rs w', evaluate_loop content sub acc w = (Ok rs, w').
Proof.
  intros Hgen. induction sub as [|p sub IH]; intros acc w Hsub Hinv.
  - exists acc, w. reflexivity.
  - rewrite evaluate_loop_cons, evaluate_principle_run. cbv zeta.
    destruct (Hgen (generator w) p Hinv (Hsub p (in_eq p sub)))
      as (reply & m' & sc & -> & Hinv' & ->).
    apply IH; [|exact Hinv'].
    intros q Hq. apply Hsub. apply in_cons. exact Hq.
Qed.

(** X8.  When every call the run makes (the prompt of a principle of the
    catalog, budget 256, from a state the generator can be in) is answered
    and every answer has a score, the run returns, with one row per
    principle of the catalog, in catalog order and under the titles of the
    catalog. *)
Lemma evaluate_content_returns content w (inv : Model -> Prop) :
  inv (generator w) ->
  (forall m p, inv m -> In p (catalog w) ->
     exists reply m' s,
       generate m (full_prompt content p) 256 = (Ok reply, m') /\
       inv m' /\
       extract_score max_str_digits reply = Ok s) ->
  exists rs w',
    evaluate_content content w = (Ok rs, w') /\
    List.length rs = List.length (catalog w) /\
    map principle_title rs = map title (catalog w).
Proof.
  intros Hinv Hgen.
  destruct (@evaluate_loop_returns content inv (catalog w) Hgen
              (catalog w) [] w (incl_refl _) Hinv) as (rs & w' & H).
  exists rs, w'. split; [exact H|].
  exact (evaluate_content_complete content w H).
Qed.

Lemma evaluate_content_catalog content w :
  catalog (snd (evaluate_content content w)) = catalog w.
Proof.
  unfold evaluate_content.
  destruct (evaluate_loop content (catalog w) [] w) as [r w'] eqn:E.
  apply evaluate_loop_inv in E as (Hc & _). exact Hc.
Qed.

Lemma evaluate_content_frame content w r w' :
  evaluate_content content w = (r, w') ->
  catalog w' = catalog w /\ loads w' = loads w.
Proof.
  unfold evaluate_content. intros E.
  apply evaluate_loop_inv in E as (Hc & Hl & _). auto.
Qed.

(** A run of the script, step by step. *)
Lemma script_run_unfold ui w :
  script_run ui w =
  let w0 n := mkWorld pipeline principles (calls w) (S (loads w)) n in
  match content_mode ui with
  | Paste_Text => evaluate_and_show ui (text_area ui) None (w0 (net w))
  | Scrape_from_URL =>
      if nonempty (text_input ui) then
        let (c, n') := scrape_url (text_input ui) (net w) in
        evaluate_and_show ui c (Some c) (w0 n')
      else evaluate_and_show ui [] None (w0 (net w))
  end.
Proof.
  unfold script_run, load_model. unfold bind at 1 2 3.
  cbv zeta. destruct (content_mode ui); cbn [fst snd net calls loads]; [reflexivity|].
  destruct (nonempty (text_input ui)); [|reflexivity].
  destruct (scrape_url (text_input ui) (net w)) as [c n']. reflexivity.
Qed.

Lemma evaluate_and_show_frame ui c sc x :
  catalog (snd (evaluate_and_show ui c sc x)) = catalog x /\
  loads (snd (evaluate_and_show ui c sc x)) = loads x.
Proof.
  unfold evaluate_and_show.
  destruct (evaluate ui && nonempty c); [|split; reflexivity].
  unfold bind, lift, ret, draw_dataframe.
  destruct (evaluate_content c x) as [[rs|e] w1] eqn:E;
    apply evaluate_content_frame in E as (Hc1 & Hl1).
  - destruct (st_dataframe (summary_rows rs)); [cbn; split; congruence|].
    destruct (avg_score rs); cbn; split; congruence.
  - cbn; split; congruence.
Qed.

(** A run of the script builds a model once and installs the catalog. *)
Lemma script_run_frame ui w :
  catalog (snd (script_run ui w)) = principles /\
  loads (snd (script_run ui w)) = S (loads w).
Proof.
  rewrite script_run_unfold. cbv zeta.
  destruct (content_mode ui).
  - apply evaluate_and_show_frame.
  - destruct (nonempty (text_input ui)).
    + destruct (scrape_url (text_input ui) (net w)) as [c n'].
      apply evaluate_and_show_frame.
    + apply evaluate_and_show_frame.
Qed.

(** ** The claims about the evaluation pipeline *)


(** C2 (as amended).  Every row of a run that returns has a score that is
    an integer not below 0; 10 is not an upper bound. *)
Theorem scores_nonnegative content w rs w' :
  evaluate_content content w = (Ok rs, w') ->
  Forall (fun r => 0 <= score r)%Z rs.
Proof.
  unfold evaluate_content. intros H.
  apply evaluate_loop_inv in H as (_ & _ & _ & k & _ & _ & _ & new & -> & _ & Hf).
  exact Hf.
Qed.

(** C4.  When the generator raises [e] on the principle at position [k],
    after the principles before it went through, the run ends with [e] and
    returns no rows; the generator has been called once for each of the
    first [k + 1] principles and never again. *)
Theorem generation_failure_aborts content w k p rs w1 e m' :
  nth_error (catalog w) k = Some p ->
  evaluate_loop content (firstn k (catalog w)) [] w = (Ok rs, w1) ->
  generate (generator w1) (full_prompt content p) 256 = (Raise e, m') ->
  exists w2,
    evaluate_content content w = (Raise e, w2) /\
    calls w2 = calls w ++ prompts content (firstn (S k) (catalog w)).
Proof.
  intros Hn Hpre Hgen.
  destruct (nth_error_split _ _ Hn) as (l1 & l2 & Hcat & Hlen).
  assert (firstn k (catalog w) = l1) as F1.
  { rewrite Hcat, <- Hlen, firstn_app, Nat.sub_diag, firstn_all.
    cbn. apply app_nil_r. }
  assert (firstn (S k) (catalog w) = l1 ++ [p]) as F2.
  { rewrite Hcat, <- Hlen, firstn_app, firstn_all2 by lia.
    replace (S (List.length l1) - List.length l1) with 1 by lia. reflexivity. }
  rewrite F1 in Hpre. rewrite F2.
  unfold evaluate_content. rewrite Hcat, evaluate_loop_app, Hpre.
  rewrite evaluate_loop_cons, evaluate_principle_run. cbv zeta. rewrite Hgen.
  eexists. split; [reflexivity|]. cbn [calls].
  apply evaluate_loop_inv in Hpre as (_ & _ & _ & j & _ & Hc & -> & _).
  rewrite Hc, firstn_all. unfold prompts. rewrite map_app, <- app_assoc.
  reflexivity.
Qed.

(** C5 (as amended).  The calls of a run are, in catalog order, one per
    principle reached: the prompt is "Content:", a line feed, the content
    as it is, two line feeds, "Instruction:", a line feed and the prompt of
    the principle, and the budget is 256.  A run that returns has reached
    every principle. *)
Theorem prompts_passed content w :
  exists k,
    calls (snd (evaluate_content content w)) =
      calls w ++
      map (fun p => (str_of "Content:" ++ [10%N] ++ content ++ [10%N; 10%N]
                       ++ str_of "Instruction:" ++ [10%N] ++ prompt p, 256%N))
          (firstn k (catalog w)) /\
    match fst (evaluate_content content w) with
    | Ok _ => k = List.length (catalog w)
    | Raise _ => k <= List.length (catalog w)
    end.
Proof.
  unfold evaluate_content.
  destruct (evaluate_loop content (catalog w) [] w) as [r w'] eqn:E.
  apply evaluate_loop_inv in E as (_ & _ & _ & k & Hk & Hc & Hr).
  exists k. cbn [fst snd]. split; [exact Hc|].
  destruct r; [apply Hr | exact Hk].
Qed.

(** C9.  The catalog has 8 principles; a run of the script installs it,
    and no evaluation changes it. *)
Theorem catalog_unchanged :
  List.length principles = 8 /\
  (forall content w, catalog (snd (evaluate_content content w)) = catalog w) /\
  (forall ui w, catalog (snd (script_run ui w)) = principles).
Proof.
  split; [reflexivity|]. split.
  - exact evaluate_content_catalog.
  - intros ui w. apply script_run_frame.
Qed.

Lemma evaluate_loop_deterministic content :
  (forall m1 m2 p n, fst (generate m1 p n) = fst (generate m2 p n)) ->
  forall ps acc w1 w2,
    fst (evaluate_loop content ps acc w1) = fst (evaluate_loop content ps acc w2).
Proof.
  intros Hdet. induction ps as [|p ps IH]; intros acc w1 w2; [reflexivity|].
  rewrite !evaluate_loop_cons, !evaluate_principle_run. cbv zeta.
  pose proof (Hdet (generator w1) (generator w2) (full_prompt content p) 256%N) as H.
  destruct (generate (generator w1) (full_prompt content p) 256) as [r1 m1].
  destruct (generate (generator w2) (full_prompt content p) 256) as [r2 m2].
  cbn in H. subst r2. destruct r1 as [reply|e]; [|reflexivity].
  destruct (extract_score max_str_digits reply); [apply IH | reflexivity].
Qed.

(** C10.  With a generator whose answer depends on the prompt and the
    budget only, evaluating the same content a second time gives the same
    outcome as the first time: the same rows in the same order. *)
Theorem evaluate_content_deterministic content w :
  (forall m1 m2 p n, fst (generate m1 p n) = fst (generate m2 p n)) ->
  fst (evaluate_content content (snd (evaluate_content content w)))
  = fst (evaluate_content content w).
Proof.
  intros Hdet. unfold evaluate_content at 1 3.
  rewrite evaluate_content_catalog.
  apply evaluate_loop_deterministic. exact Hdet.
Qed.

(** ** Scraping and session claims *)

(** The [try] fails exactly when one of its three calls raises. *)
Lemma scrape_try_fails url n e n' :
  scrape_try url n = (inl e, n') <->
  requests_get n url (str_of "Mozilla/5.0") 10 = (inl e, n') \/
  exists response,
    requests_get n url (str_of "Mozilla/5.0") 10 = (inr response, n') /\
    (raise_for_status response = inl e \/
     raise_for_status response = inr tt /\
     stripped_strings (text response) = inl e).
Proof.
  unfold scrape_try.
  destruct (requests_get n url (str_of "Mozilla/5.0") 10) as [[e0|response] n0].
  - split; [intros H; inversion H; auto | intros [H|(r & H & _)]; congruence].
  - destruct (raise_for_status response) as [e1|[]] eqn:R;
      [|destruct (stripped_strings (text response)) as [e2|ts] eqn:P];
      (split;
       [ intros H; inversion H; subst; right; exists response; auto
       | intros [H|(r & H & [H1|[H2 H1]])]; try discriminate;
         inversion H; subst; congruence ]).
Qed.






(** C8 (what the script does).  Every run of the script builds a model:
    after a session of [n] runs the process has built [n] of them. *)
Theorem session_loads_model_every_run uis : forall w,
  loads (snd (session uis w)) = loads w + List.length uis.
Proof.
  induction uis as [|ui rest IH]; intros w; cbn [session].
  - cbn. lia.
  - destruct (script_run ui w) as [r w1] eqn:E.
    specialize (IH w1). destruct (session rest w1) as [rs w2].
    cbn [snd List.length] in *. rewrite IH.
    pose proof (script_run_frame ui w) as [_ Hl]. rewrite E in Hl.
    cbn in Hl. lia.
Qed.

(** ** The overall score *)

Lemma round_half_even_scale k n d :
  (0 < k)%Z -> (0 < d)%Z ->
  PyFloat.round_half_even (k * n) (k * d) = PyFloat.round_half_even n d.
Proof.
  intros Hk Hd. unfold PyFloat.round_half_even.
  rewrite Z.div_mul_cancel_l by lia.
  rewrite Z.mul_mod_distr_l by lia.
  set (q := (n / d)%Z). set (r := (n mod d)%Z).
  replace (k * d <? 2 * (k * r))%Z with (d <? 2 * r)%Z.
  2:{ destruct (Z.ltb_spec d (2 * r)), (Z.ltb_spec (k * d) (2 * (k * r)));
        try reflexivity; nia. }
  replace (2 * (k * r) =? k * d)%Z with (2 * r =? d)%Z.
  2:{ destruct (Z.eqb_spec (2 * r) d), (Z.eqb_spec (2 * (k * r)) (k * d));
        try reflexivity; nia. }
  reflexivity.
Qed.

Lemma round_half_even_exact q d :
  (0 < d)%Z -> PyFloat.round_half_even (q * d) d = q.
Proof.
  intros Hd. unfold PyFloat.round_half_even.
  rewrite Z.div_mul, Z.mod_mul by lia. cbn [Z.mul].
  destruct (Z.ltb_spec d 0); [lia|].
  destruct (Z.eqb_spec 0 d); [lia | reflexivity].
Qed.

Lemma quotient_exponent_bounds s :
  (0 < s < 9007199254740992)%Z ->
  (-56 <= PyFloat.quotient_exponent s 8 <= -3)%Z.
Proof.
  intros H. unfold PyFloat.quotient_exponent.
  change (Z.log2 8) with 3%Z.
  assert (0 <= Z.log2 s < 53)%Z as L.
  { split; [apply Z.log2_nonneg | apply Z.log2_lt_pow2; [lia|]].
    change (2 ^ 53)%Z with 9007199254740992%Z. lia. }
  destruct (PyFloat.scaled s 8 (Z.log2 s - 3 - 52)) as [n d].
  destruct (n / d <? 2 ^ 52)%Z; lia.
Qed.

(** Below [2^53] the division by 8 is exact, and the format rounds the
    exact mean. *)
Lemma true_divide_by_8 s :
  (0 <= s < 9007199254740992)%Z ->
  exists x, PyFloat.true_divide s 8 = Ok x /\
            PyFloat.format_1f x = Spec.mean_1f s 8.
Proof.
  intros H. destruct (Z.eq_dec s 0) as [->|Hs].
  { eexists. split; reflexivity. }
  assert (0 < s < 9007199254740992)%Z as H' by lia.
  pose proof (quotient_exponent_bounds H') as B.
  unfold PyFloat.true_divide. change (8 =? 0)%Z with false. cbv iota.
  destruct (Z.ltb_spec s 0); [lia|].
  destruct (Z.eqb_spec s 0); [lia|].
  rewrite (Z.abs_eq s) by lia. change (Z.abs 8) with 8%Z.
  set (e := PyFloat.quotient_exponent s 8) in *.
  set (j := (- e - 3)%Z).
  assert (0 <= j)%Z as Hj by (unfold j; lia).
  assert (- e = 3 + j)%Z as He by (unfold j; lia).
  assert (0 < 2 ^ j)%Z as Hp by (apply Z.pow_pos_nonneg; lia).
  unfold PyFloat.scaled at 1.
  destruct (Z.leb_spec 0 e); [lia|].
  rewrite He, Z.pow_add_r by lia. change (2 ^ 3)%Z with 8%Z.
  replace (s * (8 * 2 ^ j))%Z with ((s * 2 ^ j) * 8)%Z by ring.
  rewrite round_half_even_exact by lia.
  rewrite Z.log2_mul_pow2 by lia.
  assert (0 <= Z.log2 s < 53)%Z as L.
  { split; [apply Z.log2_nonneg | apply Z.log2_lt_pow2; [lia|]].
    change (2 ^ 53)%Z with 9007199254740992%Z. lia. }
  destruct (Z.leb_spec 1024 (j + Z.log2 s + e)); [lia|].
  eexists. split; [reflexivity|].
  unfold PyFloat.format_1f, Spec.mean_1f.
  cbn [PyFloat.neg PyFloat.mant PyFloat.expo].
  unfold PyFloat.scaled. destruct (Z.leb_spec 0 (- e)); [|lia].
  rewrite He, Z.pow_add_r by lia. change (2 ^ 3)%Z with 8%Z.
  replace (10 * (s * 2 ^ j))%Z with (2 ^ j * (10 * s))%Z by ring.
  replace (1 * (8 * 2 ^ j))%Z with (2 ^ j * 8)%Z by ring.
  rewrite round_half_even_scale by lia. reflexivity.
Qed.

Lemma total_nonneg scores :
  Forall (fun r => 0 <= score r)%Z scores -> (0 <= total scores)%Z.
Proof.
  unfold total.
  assert (forall acc, (0 <= acc)%Z ->
            Forall (fun r => 0 <= score r)%Z scores ->
            (0 <= fold_left Z.add (map score scores) acc)%Z) as G.
  { induction scores as [|r rs IH]; cbn [map fold_left]; intros acc Ha H;
      [exact Ha|].
    inversion H as [|r' rs' Hr Hrs]; subst. cbv beta in Hr.
    apply IH; [lia | assumption]. }
  apply G. lia.
Qed.

(** C7 (as amended).  For a run over the catalog that returns, with a
    sum of scores below [2^53], the division does not fail and the number
    shown is the mean [sum / 8] written with one decimal, the nearest one,
    a tie going to the even digit. *)
Theorem overall_score_mean content w scores w' :
  catalog w = principles ->
  evaluate_content content w = (Ok scores, w') ->
  (total scores < 2 ^ 53)%Z ->
  exists avg,
    avg_score scores = Ok avg /\
    PyFloat.format_1f avg = Spec.mean_1f (total scores) 8.
Proof.
  intros Hc Hrun Hlt.
  pose proof (evaluate_content_complete _ _ Hrun) as [Hlen _].
  rewrite Hc in Hlen. change (List.length principles) with 8 in Hlen.
  assert (Forall (fun r => 0 <= score r)%Z scores) as Hnn.
  { unfold evaluate_content in Hrun.
    apply evaluate_loop_inv in Hrun
      as (_ & _ & _ & k & _ & _ & _ & new & -> & _ & Hf).
    exact Hf. }
  apply total_nonneg in Hnn.
  unfold avg_score. rewrite Hlen. change (Z.of_nat 8) with 8%Z.
  apply true_divide_by_8.
  change (2 ^ 53)%Z with 9007199254740992%Z in Hlt. lia.
Qed.

(** ** Further properties of the score extraction *)

Ltac solve_in := cbn [In]; repeat (first [left; reflexivity | right]).

Lemma contains_single d s : contains [d] s = existsb (N.eqb d) s.
Proof.
  induction s as [|c r IH]; [reflexivity|].
  cbn [contains startswith existsb]. rewrite IH, andb_true_r. reflexivity.
Qed.

Lemma contains_pair a b s :
  contains [a; b] s = true -> existsb (N.eqb a) s = true.
Proof.
  induction s as [|c r IH]; [discriminate|].
  cbn [contains startswith existsb]. intros H.
  apply orb_prop in H as [H|H].
  - apply andb_prop in H as [H _]. rewrite H. reflexivity.
  - rewrite (IH H). apply orb_true_r.
Qed.

Lemma digit_cases c :
  Spec.digit c = true <->
  In c [48; 49; 50; 51; 52; 53; 54; 55; 56; 57]%N.
Proof using.
  split.
  - intros H. apply digit_bounds in H. cbn [In].
    assert (c = 48 \/ c = 49 \/ c = 50 \/ c = 51 \/ c = 52 \/ c = 53 \/
            c = 54 \/ c = 55 \/ c = 56 \/ c = 57)%N as D by lia.
    repeat (destruct D as [D|D]; [subst c; solve_in|]). subst c. solve_in.
  - cbn [In]. intros H.
    repeat (destruct H as [<-|H]; [reflexivity|]). destruct H.
Qed.

Lemma existsb_map_comp {A B} (f : B -> bool) (g : A -> B) l :
  existsb f (map g l) = existsb (fun x => f (g x)) l.
Proof.
  induction l as [|a r IH]; [reflexivity|]. cbn. now rewrite IH.
Qed.

Lemma mentions_number_strings line :
  mentions_number line =
  existsb (fun d => contains d line)
    [[48]; [49]; [50]; [51]; [52]; [53]; [54]; [55]; [56]; [57]; [49; 48]]%N.
Proof.
  unfold mentions_number.
  rewrite <- (existsb_map_comp (fun d => contains d line) str_N).
  reflexivity.
Qed.

Lemma mentions_number_existsb line :
  mentions_number line = existsb Spec.digit line.
Proof using.
  apply eq_true_iff_eq. rewrite mentions_number_strings.
  rewrite !existsb_exists. split.
  - intros (n & Hn & Hc). cbn [In] in Hn.
    assert (exists d, Spec.digit d = true /\ existsb (N.eqb d) line = true)
      as (d & Hd & He).
    { repeat (destruct Hn as [<-|Hn];
              [ first [ rewrite contains_single in Hc
                      | apply contains_pair in Hc ];
                eexists; split; [|exact Hc]; reflexivity |]).
      destruct Hn. }
    apply existsb_exists in He as (c & Hin & Heq).
    apply N.eqb_eq in Heq. subst c. exists d. split; assumption.
  - intros (c & Hin & Hd). apply digit_cases in Hd. cbn [In] in Hd.
    assert (existsb (N.eqb c) line = true) as He.
    { apply existsb_exists. exists c. split; [exact Hin | apply N.eqb_refl]. }
    rewrite <- contains_single in He.
    repeat (destruct Hd as [<-|Hd];
            [ eexists; split; [|exact He]; solve_in |]).
    destruct Hd.
Qed.

(** X1.  A line is chosen by the test of line 97 exactly when it has one
    of the characters 0 to 9: the string "10" adds nothing to the test. *)
Theorem mentions_number_digit line :
  mentions_number line = true <->
  exists c, In c line /\ (48 <= c <= 57)%N.
Proof using.
  rewrite mentions_number_existsb, existsb_exists.
  split; intros (c & Hin & H); exists c; (split; [exact Hin|]).
  - exact (digit_bounds c H).
  - unfold Spec.digit. apply andb_true_intro.
    split; apply N.leb_le; apply H.
Qed.

Lemma score_line_digit reply : existsb isdigit (score_line reply) = true.
Proof using.
  unfold score_line.
  destruct (find mentions_number (splitlines reply)) as [line|] eqn:F;
    [|reflexivity].
  apply find_some in F as [_ F]. rewrite mentions_number_existsb in F.
  apply existsb_exists in F as (c & Hin & Hd).
  apply existsb_exists. exists c. split; [exact Hin|].
  exact (digit_isdigit c Hd).
Qed.

(** X2.  The line chosen on line 97 always has a digit, so the [else 0] of
    line 98 is never taken: the score is always what [int] makes of the
    digits of the chosen line. *)
Theorem score_line_has_digit reply :
  existsb isdigit (score_line reply) = true /\
  extract_score max_str_digits reply
  = PyInt.int max_str_digits (filter isdigit (score_line reply)).
Proof using max_str_digits.
  pose proof (score_line_digit reply) as H.
  split; [exact H|]. unfold extract_score, score_of_line. rewrite H.
  reflexivity.
Qed.

Lemma splitlines_from_chars : forall s cur line c,
  In line (splitlines_from cur s) -> In c line -> In c cur \/ In c s.
Proof using.
  assert (forall n s, List.length s <= n -> forall cur line c,
            In line (splitlines_from cur s) -> In c line ->
            In c cur \/ In c s) as G.
  { induction n as [|n IH]; intros s Hlen cur line c Hl Hc.
    - destruct s; [|cbn in Hlen; lia]. cbn in Hl.
      destruct cur as [|x cur']; [destruct Hl|].
      destruct Hl as [<-|[]]. left. now apply in_rev.
    - destruct s as [|x rest].
      + cbn in Hl. destruct cur as [|y cur']; [destruct Hl|].
        destruct Hl as [<-|[]]. left. now apply in_rev.
      + cbn [List.length] in Hlen. cbn [splitlines_from] in Hl.
        destruct (x =? 13)%N.
        * destruct rest as [|d rest'].
          -- destruct Hl as [<-|Hl]; [left; now apply in_rev|].
             destruct Hl.
          -- destruct (d =? 10)%N.
             ++ destruct Hl as [<-|Hl]; [left; now apply in_rev|].
                destruct (IH rest' ltac:(cbn in Hlen; lia) [] line c Hl Hc)
                  as [[]|H]. right. apply in_cons, in_cons. exact H.
             ++ destruct Hl as [<-|Hl]; [left; now apply in_rev|].
                destruct (IH (d :: rest') ltac:(cbn in *; lia) [] line c Hl Hc)
                  as [[]|H]. right. apply in_cons. exact H.
        * destruct (islinebreak x).
          -- destruct Hl as [<-|Hl]; [left; now apply in_rev|].
             destruct (IH rest ltac:(lia) [] line c Hl Hc) as [[]|H].
             right. apply in_cons. exact H.
          -- destruct (IH rest ltac:(lia) (x :: cur) line c Hl Hc) as [H|H].
             ++ destruct H as [<-|H]; [right; apply in_eq | left; exact H].
             ++ right. apply in_cons. exact H. }
  intros s. exact (G (List.length s) s (le_n _)).
Qed.

Lemma sentinel_score :
  score_of_line max_str_digits (str_of "Score: 0") = Ok 0%Z.
Proof. apply score_of_line_ascii; reflexivity. Qed.

(** X3.  A reply without any of the characters 0 to 9 has score 0: no line
    is chosen and the sentinel line "Score: 0" is read. *)
Theorem extract_score_no_digit reply :
  existsb Spec.digit reply = false ->
  score_line reply = str_of "Score: 0" /\
  extract_score max_str_digits reply = Ok 0%Z.
Proof using max_str_digits.
  intros H.
  assert (score_line reply = str_of "Score: 0") as S.
  { unfold score_line.
    destruct (find mentions_number (splitlines reply)) as [line|] eqn:F;
      [|reflexivity].
    apply find_some in F as [Hl F]. rewrite mentions_number_existsb in F.
    apply existsb_exists in F as (c & Hin & Hd).
    destruct (splitlines_from_chars reply [] line c Hl Hin) as [[]|Hr].
    assert (existsb Spec.digit reply = true) as T
      by (apply existsb_exists; exists c; split; assumption).
    congruence. }
  split; [exact S|]. unfold extract_score. rewrite S. apply sentinel_score.
Qed.

Lemma find_none_existsb {A} (f : A -> bool) l :
  find f l = None <-> existsb f l = false.
Proof using.
  induction l as [|a r IH]; cbn; [split; reflexivity|].
  destruct (f a); cbn; [split; discriminate | exact IH].
Qed.

Lemma decimal_value_none c : decimal_value c = None <-> isdecimal c = false.
Proof using.
  unfold decimal_value, isdecimal, in_ranges.
  rewrite <- find_none_existsb.
  destruct (find _ decimal_ranges) as [[lo hi]|]; split;
    solve [reflexivity | discriminate].
Qed.

Lemma decimal_values_none s :
  PyInt.decimal_values s = None <->
  existsb (fun c => negb (isdecimal c)) s = true.
Proof using.
  induction s as [|c r IH]; cbn [PyInt.decimal_values existsb].
  - split; discriminate.
  - destruct (decimal_value c) as [d|] eqn:D.
    + assert (isdecimal c = true) as T.
      { destruct (isdecimal c) eqn:E; [reflexivity|].
        apply decimal_value_none in E. congruence. }
      rewrite T. cbn [negb orb]. rewrite <- IH.
      destruct (PyInt.decimal_values r); split;
        solve [reflexivity | discriminate].
    + apply decimal_value_none in D. rewrite D. cbn. split; reflexivity.
Qed.

Lemma existsb_filter {A} (f g : A -> bool) l :
  existsb g (filter f l) = existsb (fun x => f x && g x) l.
Proof.
  induction l as [|a r IH]; [reflexivity|]. cbn [filter existsb].
  destruct (f a); cbn [existsb andb]; now rewrite IH.
Qed.

Lemma existsb_filter_cons {A} (f : A -> bool) l :
  existsb f l = true -> exists a r, filter f l = a :: r.
Proof.
  induction l as [|x l IH]; [discriminate|]. cbn [existsb filter].
  destruct (f x); [eauto | exact IH].
Qed.

(** X4.  The extraction fails exactly when the chosen line has a character
    that [str.isdigit] accepts and that is not a decimal digit, or more
    digits than the conversion limit allows; the exception is ValueError. *)
Theorem extract_score_raises reply e :
  extract_score max_str_digits reply = Raise e <->
  e = ValueError /\
  (existsb (fun c => isdigit c && negb (isdecimal c)) (score_line reply) = true \/
   PyInt.exceeds_limit max_str_digits
     (List.length (filter isdigit (score_line reply))) = true).
Proof using max_str_digits.
  pose proof (score_line_digit reply) as Hd.
  unfold extract_score, score_of_line. rewrite Hd.
  rewrite <- existsb_filter, <- decimal_values_none.
  unfold PyInt.int.
  destruct (existsb_filter_cons _ _ Hd) as (c & r & ->).
  destruct (PyInt.decimal_values (c :: r)) as [ds|].
  - destruct (PyInt.exceeds_limit max_str_digits (List.length (c :: r))).
    + split; [intros H; inversion H; auto | intros [-> _]; reflexivity].
    + split; [discriminate | intros [_ [H|H]]; discriminate].
  - split; [intros H; inversion H; auto | intros [-> _]; reflexivity].
Qed.

(** ** Replies that repeat the prompt *)

Lemma islinebreak_cr c : (c =? 13)%N = true -> islinebreak c = true.
Proof. intros H. apply N.eqb_eq in H. subst c. reflexivity. Qed.

(** The first line [splitlines] finds. *)
Lemma splitlines_from_first : forall s cur,
  cur <> [] \/ s <> [] ->
  exists rest, splitlines_from cur s = (rev cur ++ first_line s) :: rest.
Proof.
  induction s as [|c r IH]; intros cur H.
  - destruct H as [H|H]; [|congruence].
    destruct cur as [|x cur']; [congruence|].
    exists []. cbn [splitlines_from first_line]. now rewrite app_nil_r.
  - cbn [splitlines_from first_line].
    destruct (c =? 13)%N eqn:E13.
    + rewrite (islinebreak_cr c E13), app_nil_r.
      destruct r as [|d r']; [eauto|]. destruct (d =? 10)%N; eauto.
    + destruct (islinebreak c) eqn:Elb.
      * rewrite app_nil_r. eauto.
      * destruct (IH (c :: cur)) as (rest & ->); [left; discriminate|].
        exists rest. cbn [rev]. now rewrite <- app_assoc.
Qed.

Lemma first_line_app a s :
  forallb (fun c => negb (islinebreak c)) a = true ->
  first_line (a ++ s) = a ++ first_line s.
Proof.
  induction a as [|c r IH]; [reflexivity|]. cbn [forallb app first_line].
  intros H. apply andb_prop in H as [Hc Hr].
  destruct (islinebreak c); [discriminate|]. now rewrite IH.
Qed.

Lemma no_digit_not_mentioned line :
  existsb Spec.digit line = false -> mentions_number (rev line) = false.
Proof using.
  intros H. rewrite mentions_number_existsb.
  destruct (existsb Spec.digit (rev line)) eqn:E; [|reflexivity].
  apply existsb_exists in E as (c & Hin & Hd). apply in_rev in Hin.
  assert (existsb Spec.digit line = true) as T
    by (apply existsb_exists; exists c; split; assumption).
  congruence.
Qed.

Lemma splitlines_from_lf cur s :
  splitlines_from cur (10%N :: s) = rev cur :: splitlines_from [] s.
Proof. reflexivity. Qed.

(** Lines without a digit before a line feed are passed over. *)
Lemma find_after_prefix s : forall pre cur,
  existsb Spec.digit cur = false ->
  existsb Spec.digit pre = false ->
  find mentions_number (splitlines_from cur (pre ++ 10%N :: s))
  = find mentions_number (splitlines_from [] s).
Proof using.
  assert (forall n pre, List.length pre <= n -> forall cur,
            existsb Spec.digit cur = false ->
            existsb Spec.digit pre = false ->
            find mentions_number (splitlines_from cur (pre ++ 10%N :: s))
            = find mentions_number (splitlines_from [] s)) as G.
  { induction n as [|n IH]; intros pre Hlen cur Hcur Hpre.
    - destruct pre; [|cbn in Hlen; lia].
      cbn [app]. rewrite splitlines_from_lf. cbn [find].
      now rewrite (no_digit_not_mentioned _ Hcur).
    - destruct pre as [|c pre'].
      + cbn [app]. rewrite splitlines_from_lf. cbn [find].
        now rewrite (no_digit_not_mentioned _ Hcur).
      + cbn [List.length] in Hlen. cbn [existsb] in Hpre.
        apply orb_false_elim in Hpre as [Hc Hpre'].
        cbn [app splitlines_from].
        destruct (c =? 13)%N.
        * destruct pre' as [|d pre''].
          -- cbn [app]. change (10 =? 10)%N with true. cbv iota. cbn [find].
             now rewrite (no_digit_not_mentioned _ Hcur).
          -- cbn [app]. cbn [existsb] in Hpre'.
             apply orb_false_elim in Hpre' as [Hd Hpre''].
             destruct (d =? 10)%N; cbn [find];
               rewrite (no_digit_not_mentioned _ Hcur).
             ++ apply (IH pre''); [cbn in Hlen; lia | reflexivity | exact Hpre''].
             ++ apply (IH (d :: pre'')); [cbn in *; lia | reflexivity |].
                cbn [existsb]. now rewrite Hd, Hpre''.
        * destruct (islinebreak c).
          -- cbn [find]. rewrite (no_digit_not_mentioned _ Hcur).
             apply (IH pre'); [lia | reflexivity | exact Hpre'].
          -- apply (IH pre'); [lia | | exact Hpre'].
             cbn [existsb]. now rewrite Hc, Hcur. }
  intros pre. exact (G (List.length pre) pre (le_n _)).
Qed.

(** After a prefix without digits that ends a line, the chosen line is the
    first line of what follows when that line has a digit. *)
Lemma score_line_after_prefix pre a s :
  existsb Spec.digit pre = false ->
  a <> [] ->
  forallb (fun c => negb (islinebreak c)) a = true ->
  existsb Spec.digit a = true ->
  score_line (pre ++ 10%N :: a ++ s) = a ++ first_line s.
Proof using.
  intros Hpre Ha Hlb Hd. unfold score_line, splitlines.
  rewrite find_after_prefix by (reflexivity || exact Hpre).
  destruct (@splitlines_from_first (a ++ s) []) as (rest & ->).
  { right. destruct a; [congruence | discriminate]. }
  cbn [rev app find]. rewrite first_line_app by exact Hlb.
  rewrite mentions_number_existsb, existsb_app, Hd. reflexivity.
Qed.

Lemma full_prompt_instruction content p s :
  full_prompt content p ++ s =
  (str_of "Content:" ++ [10%N] ++ content ++ [10%N; 10%N]
     ++ str_of "Instruction:") ++ 10%N :: prompt p ++ s.
Proof.
  unfold full_prompt, LF. rewrite <- !app_assoc. cbn [app]. 
  repeat (rewrite <- ?app_assoc; cbn [app]). reflexivity.
Qed.

Lemma full_prompt_content content p s :
  full_prompt content p ++ s =
  str_of "Content:" ++ 10%N :: content ++
    (10%N :: 10%N :: str_of "Instruction:" ++ 10%N :: prompt p ++ s).
Proof.
  unfold full_prompt, LF. 
  repeat (rewrite <- ?app_assoc; cbn [app]). reflexivity.
Qed.

Lemma catalog_prompt_facts p :
  In p principles ->
  prompt p <> [] /\
  forallb (fun c => negb (islinebreak c)) (prompt p) = true /\
  existsb Spec.digit (prompt p) = true /\
  filter isdigit (prompt p) = str_of "010".
Proof.
  unfold principles. cbn [In]. intros H.
  repeat (destruct H as [<-|H];
          [ split; [vm_compute; discriminate|];
            repeat split; vm_compute; reflexivity |]).
  destruct H.
Qed.

(** X5.  When the reply repeats the prompt and the content has none of the
    characters 0 to 9, the chosen line is the instruction of the principle
    followed by what the generator wrote up to its first line boundary:
    the digits of "Rate 0-10" are always part of the score. *)
Theorem echoed_prompt_score_line content p continuation :
  In p principles ->
  existsb Spec.digit content = false ->
  score_line (full_prompt content p ++ continuation)
  = prompt p ++ first_line continuation.
Proof using.
  intros Hp Hc.
  destruct (catalog_prompt_facts Hp) as (Hne & Hlb & Hd & _).
  rewrite full_prompt_instruction.
  apply score_line_after_prefix; try assumption.
  rewrite !existsb_app, Hc. reflexivity.
Qed.

(** X6.  In that case, when the generator's text is empty or starts on a
    new line, the score is 10 for every principle of the catalog, whatever
    the generator wrote. *)
Theorem echoed_prompt_scores_ten content p continuation :
  In p principles ->
  existsb Spec.digit content = false ->
  first_line continuation = [] ->
  extract_score max_str_digits (full_prompt content p ++ continuation)
  = Ok 10%Z.
Proof using max_str_digits.
  intros Hp Hc Hf.
  destruct (catalog_prompt_facts Hp) as (Hne & Hlb & Hd & Hdigits).
  unfold extract_score, score_of_line. rewrite score_line_digit.
  rewrite full_prompt_instruction, score_line_after_prefix; try assumption.
  - rewrite Hf, app_nil_r, Hdigits. reflexivity.
  - rewrite !existsb_app, Hc. reflexivity.
Qed.

(** X7.  When the reply repeats the prompt and the first line of the
    content has one of the characters 0 to 9, that line is the chosen one
    for every principle: the generator's text plays no part in the score. *)
Theorem echoed_content_score_line content p continuation :
  existsb Spec.digit (first_line content) = true ->
  score_line (full_prompt content p ++ continuation) = first_line content.
Proof using.
  intros Hd.
  assert (exists tail, content = first_line content ++ tail /\
                       first_line tail = [] /\
                       forallb (fun c => negb (islinebreak c))
                         (first_line content) = true) as (tail & Hsplit & Ht & Hlb).
  { clear. induction content as [|c r (tail & Hs & Ht & Hlb)].
    - exists []. repeat split; reflexivity.
    - cbn [first_line]. destruct (islinebreak c) eqn:E.
      + exists (c :: r). repeat split; try reflexivity.
        cbn [first_line]. now rewrite E.
      + exists tail. cbn [app forallb]. rewrite E, Hlb.
        repeat split; try reflexivity; [congruence | exact Ht]. }
  assert (first_line content <> []) as Hne
    by (intros E; rewrite E in Hd; discriminate).
  rewrite full_prompt_content.
  set (rest := (10%N :: 10%N :: str_of "Instruction:" ++ 10%N :: prompt p
                  ++ continuation)).
  rewrite Hsplit at 1. rewrite <- app_assoc.
  rewrite score_line_after_prefix; try assumption; [|reflexivity].
  assert (first_line (tail ++ rest) = []) as ->; [|apply app_nil_r].
  destruct tail as [|t tail']; [reflexivity|].
  cbn [first_line app] in *. destruct (islinebreak t); [reflexivity|discriminate].
Qed.

(** ** Rows, guards and the overflow of the mean *)

Lemma evaluate_loop_rows content (answer : str -> str) :
  (forall m p n, fst (generate m p n) = Ok (answer p)) ->
  forall ps acc w rs w',
    evaluate_loop content ps acc w = (Ok rs, w') ->
    exists new,
      rs = acc ++ new /\
      Forall2 (fun p r =>
                 principle_title r = title p /\
                 extract_score max_str_digits (answer (full_prompt content p))
                 = Ok (score r) /\
                 explanation r = strip (answer (full_prompt content p)))
              ps new.
Proof.
  intros Hgen. induction ps as [|p ps IH]; intros acc w rs w' H.
  - inversion H; subst. exists []. split; [now rewrite app_nil_r | constructor].
  - rewrite evaluate_loop_cons, evaluate_principle_run in H. cbv zeta in H.
    pose proof (Hgen (generator w) (full_prompt content p) 256%N) as Hg.
    destruct (generate (generator w) (full_prompt content p) 256)
      as [[reply|e] m']; cbn [fst] in Hg; [|discriminate].
    injection Hg as Hr. subst reply.
    destruct (extract_score max_str_digits (answer (full_prompt content p)))
      as [sc|e] eqn:E; [|discriminate H].
    apply IH in H as (new & -> & Hf).
    eexists (_ :: new). rewrite <- app_assoc. split; [reflexivity|].
    constructor; [|exact Hf]. cbn. auto.
Qed.

(** X9.  For a generator whose answer to a prompt is [answer prompt], the
    rows of a run that returns are, principle by principle in catalog
    order: the title of the principle, the score extracted from the answer
    to its prompt, and that answer without the white space at its ends. *)
Theorem evaluate_content_rows content (answer : str -> str) w rs w' :
  (forall m p n, fst (generate m p n) = Ok (answer p)) ->
  evaluate_content content w = (Ok rs, w') ->
  Forall2 (fun p r =>
             principle_title r = title p /\
             extract_score max_str_digits (answer (full_prompt content p))
             = Ok (score r) /\
             explanation r = strip (answer (full_prompt content p)))
          (catalog w) rs.
Proof.
  intros Hgen H. unfold evaluate_content in H.
  destruct (evaluate_loop_rows content answer Hgen _ _ _ H) as (new & -> & Hf).
  exact Hf.
Qed.

Lemma evaluate_and_show_idle ui c sc x :
  evaluate ui && nonempty c = false ->
  evaluate_and_show ui c sc x = (Ok (mkPage sc None), x).
Proof. unfold evaluate_and_show. intros ->. reflexivity. Qed.

(** X10.  Without the button pressed, or with an empty text area in paste
    mode, or with an empty URL field in URL mode, a run of the script
    evaluates nothing: the generator is not called and the page has no
    report. *)
Theorem no_evaluation_without_input ui w :
  evaluate ui = false \/
  (content_mode ui = Paste_Text /\ text_area ui = []) \/
  (content_mode ui = Scrape_from_URL /\ text_input ui = []) ->
  calls (snd (script_run ui w)) = calls w /\
  exists sc, fst (script_run ui w) = Ok (mkPage sc None).
Proof.
  intros H. rewrite script_run_unfold. cbv zeta.
  destruct (content_mode ui) eqn:Em.
  - rewrite evaluate_and_show_idle.
    + cbn. eauto.
    + destruct H as [->|[[_ ->]|[? _]]]; try reflexivity;
        [apply andb_false_r | discriminate].
  - destruct (nonempty (text_input ui)) eqn:Eu.
    + destruct (scrape_url (text_input ui) (net w)) as [c n'].
      destruct H as [Hb|[[? _]|[_ Hu]]]; [|discriminate|].
      * rewrite evaluate_and_show_idle by (rewrite Hb; reflexivity).
        cbn. eauto.
      * rewrite Hu in Eu. discriminate.
    + rewrite evaluate_and_show_idle by apply andb_false_r. cbn. eauto.
Qed.

Lemma evaluate_and_show_net ui c sc x :
  net (snd (evaluate_and_show ui c sc x)) = net x.
Proof.
  unfold evaluate_and_show.
  destruct (evaluate ui && nonempty c); [|reflexivity].
  unfold bind, lift, ret, draw_dataframe.
  destruct (evaluate_content c x) as [[rs|e] w1] eqn:E;
    unfold evaluate_content in E;
    apply evaluate_loop_inv in E as (_ & _ & Hn & _).
  - destruct (st_dataframe (summary_rows rs)); [exact Hn|].
    destruct (avg_score rs); exact Hn.
  - exact Hn.
Qed.

(** X11.  In paste mode, and in URL mode with an empty URL field, a run of
    the script makes no request: the network is left as it was, whether an
    evaluation runs or not. *)
Theorem no_request_without_url ui w :
  content_mode ui = Paste_Text \/ text_input ui = [] ->
  net (snd (script_run ui w)) = net w.
Proof.
  intros H. rewrite script_run_unfold. cbv zeta.
  destruct (content_mode ui).
  - rewrite evaluate_and_show_net. reflexivity.
  - destruct H as [H|H]; [discriminate|]. rewrite H. cbn [nonempty].
    rewrite evaluate_and_show_net. reflexivity.
Qed.

Lemma round_half_even_lower n d :
  (n / d <= PyFloat.round_half_even n d)%Z.
Proof.
  unfold PyFloat.round_half_even.
  destruct (d <? 2 * (n mod d))%Z; [lia|].
  destruct (2 * (n mod d) =? d)%Z; [|lia].
  destruct (Z.even (n / d)); lia.
Qed.

(** The division by 8 overflows from [2^1027] on. *)
Lemma true_divide_by_8_overflow s :
  (2 ^ 1027 <= s)%Z -> PyFloat.true_divide s 8 = Raise OverflowError.
Proof.
  intros H.
  assert (0 < 2 ^ 1027)%Z as P by (apply Z.pow_pos_nonneg; lia).
  assert (0 < s)%Z as Hs by lia.
  assert (1027 <= Z.log2 s)%Z as HL.
  { rewrite <- (Z.log2_pow2 1027) by lia. apply Z.log2_le_mono. exact H. }
  destruct (Z.log2_spec s Hs) as [Hlo Hhi].
  remember (Z.log2 s) as L eqn:EL.
  assert (0 < 2 ^ (L - 52))%Z as Pd by (apply Z.pow_pos_nonneg; lia).
  assert (8 * 2 ^ (L - 3 - 52) = 2 ^ (L - 52))%Z as Hden.
  { change 8%Z with (2 ^ 3)%Z. rewrite <- Z.pow_add_r by lia.
    f_equal. lia. }
  assert (2 ^ 52 <= s / 2 ^ (L - 52))%Z as Hq.
  { apply Z.div_le_lower_bound; [exact Pd|].
    rewrite <- Z.pow_add_r by lia. replace (L - 52 + 52)%Z with L by lia.
    exact Hlo. }
  assert (PyFloat.quotient_exponent s 8 = L - 3 - 52)%Z as He.
  { unfold PyFloat.quotient_exponent. rewrite <- EL.
    change (Z.log2 8) with 3%Z.
    unfold PyFloat.scaled. destruct (Z.leb_spec 0 (L - 3 - 52)); [|lia].
    cbv beta iota zeta. rewrite Hden.
    destruct (Z.ltb_spec (s / 2 ^ (L - 52)) (2 ^ 52)) as [Hlt|_].
    - exfalso. apply (Z.lt_irrefl (2 ^ 52)).
      eapply Z.le_lt_trans; [exact Hq | exact Hlt].
    - lia. }
  unfold PyFloat.true_divide. change (8 =? 0)%Z with false. cbv iota.
  destruct (Z.eqb_spec s 0); [lia|].
  rewrite (Z.abs_eq s) by lia. change (Z.abs 8) with 8%Z. rewrite He.
  unfold PyFloat.scaled. destruct (Z.leb_spec 0 (L - 3 - 52)); [|lia].
  cbv beta iota zeta. rewrite Hden.
  pose proof (round_half_even_lower s (2 ^ (L - 52))) as Hm.
  assert (52 <= Z.log2 (PyFloat.round_half_even s (2 ^ (L - 52))))%Z as Hlog.
  { assert (Z.log2 (2 ^ 52)
            <= Z.log2 (PyFloat.round_half_even s (2 ^ (L - 52))))%Z as G
      by (apply Z.log2_le_mono; eapply Z.le_trans; [exact Hq | exact Hm]).
    rewrite Z.log2_pow2 in G by lia. exact G. }
  destruct (Z.leb_spec 1024
              (Z.log2 (PyFloat.round_half_even s (2 ^ (L - 52)))
               + (L - 3 - 52))); [reflexivity | lia].
Qed.

Lemma avg_score_overflows scores :
  List.length scores = 8 ->
  (2 ^ 1027 <= total scores)%Z ->
  avg_score scores = Raise OverflowError.
Proof.
  intros Hlen H. unfold avg_score. rewrite Hlen.
  change (Z.of_nat 8) with 8%Z. now apply true_divide_by_8_overflow.
Qed.

(** X12.  When the 8 scores of a run over the catalog add up to [2^1027]
    or more, the run shows no overall score: it ends with what the table
    of line 113 raises, and if the table is drawn it ends with the
    OverflowError of the division of line 122. *)
Theorem no_overall_score_on_overflow ui c sc w scores w' :
  evaluate ui = true ->
  nonempty c = true ->
  catalog w = principles ->
  evaluate_content c w = (Ok scores, w') ->
  (2 ^ 1027 <= total scores)%Z ->
  evaluate_and_show ui c sc w =
  (match st_dataframe (summary_rows scores) with
   | inl e => Raise (Exception e)
   | inr _ => Raise OverflowError
   end, w').
Proof.
  intros Hb Hc Hcat Hrun Hbig.
  pose proof (evaluate_content_complete _ _ Hrun) as [Hlen _].
  rewrite Hcat in Hlen. change (List.length principles) with 8 in Hlen.
  unfold evaluate_and_show. rewrite Hb, Hc. cbn [andb].
  unfold bind, lift, ret, draw_dataframe. rewrite Hrun.
  destruct (st_dataframe (summary_rows scores)) as [e|[]]; [reflexivity|].
  rewrite (avg_score_overflows scores Hlen Hbig). reflexivity.
Qed.

End App.

(** ** The claims on concrete runs *)



(** C2 as stated fails on the generator that always answers
    "Score: 7 out of 10.": every row of the run has score 710. *)
Lemma scores_above_ten :
  match evaluate_content 4300 (Stub.constant (str_of "Score: 7 out of 10."))
          [] (mkWorld tt principles [] 0 tt) with
  | (Ok rs, _) =>
      map score rs = repeat 710%Z 8 /\
      ~ Forall (fun r => 0 <= score r <= 10)%Z rs
  | (Raise _, _) => False
  end.
Proof.
  vm_compute. split; [reflexivity|].
  intros H. inversion H as [|r rs [_ Hle] _]. apply Hle. reflexivity.
Qed.

Lemma scores_nonnegative_witness :
  Forall (fun r => 0 <= score r)%Z
    (match fst (evaluate_content 4300
                  (Stub.constant (str_of "Score: 7 out of 10."))
                  [] (mkWorld tt principles [] 0 tt)) with
     | Ok rs => rs
     | Raise _ => []
     end).
Proof.
  apply (scores_nonnegative 4300
           (Stub.constant (str_of "Score: 7 out of 10."))
           [] (mkWorld tt principles [] 0 tt)
           (w' := snd (evaluate_content 4300
                         (Stub.constant (str_of "Score: 7 out of 10."))
                         [] (mkWorld tt principles [] 0 tt)))).
  vm_compute. reflexivity.
Defined.

(** C3 (what the script does).  The content "Area: 10 m" followed by
    U+00B2, superscript two, with a generator that answers every call by
    the prompt and a verdict: the first line of the reply with a number is
    the content line, [str.isdigit] keeps the superscript and [int]
    rejects it.  The run raises ValueError on the first principle and
    returns no rows. *)
Theorem evaluate_content_superscript_raises :
  let content := str_of "Area: 10 m" ++ [178%N] in
  let w := mkWorld tt principles [] 0 tt in
  score_line (full_prompt content (hd (mkPrinciple [] [] []) principles)
                ++ [10%N] ++ str_of "Score: 7") = content /\
  fst (evaluate_content 4300 Stub.echo content w) = Raise ValueError /\
  List.length (calls (snd (evaluate_content 4300 Stub.echo content w))) = 1.
Proof. vm_compute. repeat split; reflexivity. Qed.

(** C4 on a generator that raises on its third call. *)
Lemma generation_failure_aborts_witness :
  exists w2,
    evaluate_content 4300 (Stub.fails_at 2) (str_of "Some page text")
      (mkWorld 0 principles [] 0 tt)
    = (Raise (Exception (str_of "CUDA out of memory")), w2) /\
    calls w2 =
      calls (mkWorld 0 principles [] 0 tt) ++
      prompts (str_of "Some page text")
        (firstn 3 (catalog (mkWorld 0 principles [] 0 tt))).
Proof.
  eapply (generation_failure_aborts 4300 (Stub.fails_at 2)
            (str_of "Some page text") (mkWorld 0 principles [] 0 tt) 2).
  - reflexivity.
  - reflexivity.
  - reflexivity.
Defined.

(** C5 as stated fails on the empty content: the prompts passed are not
    the two labels, the content and the instruction put end to end; the
    line feeds of the format string are part of them. *)
Lemma prompts_not_bare_concatenation :
  calls (snd (evaluate_content 4300 (Stub.constant (str_of "Score: 7"))
                [] (mkWorld tt principles [] 0 tt)))
  <> map (fun p => (Spec.combined_prompt [] (prompt p), 256%N)) principles.
Proof. vm_compute. intros H. discriminate H. Qed.



(** C7 as stated fails when the scores add up to [2^53 + 1]: the mean is
    1125899906842624.125, the float nearest to it is 1125899906842624. *)
Lemma overall_score_rounded :
  let replies := str_of "9007199254740993" :: repeat (str_of "0") 7 in
  match evaluate_content 4300 (Stub.scripted replies) []
          (mkWorld 0 principles [] 0 tt) with
  | (Ok scores, _) =>
      List.length scores = 8 /\
      total scores = (2 ^ 53 + 1)%Z /\
      (exists avg, avg_score scores = Ok avg /\
                   PyFloat.format_1f avg = str_of "1125899906842624.0") /\
      Spec.mean_1f (total scores) 8 = str_of "1125899906842624.1"
  | (Raise _, _) => False
  end.
Proof.
  vm_compute. repeat split; try reflexivity.
  eexists. split; reflexivity.
Qed.

(** With a score of 400 digits the division itself fails. *)
Example avg_score_overflow :
  avg_score (mkResult [] (10 ^ 400) [] :: repeat (mkResult [] 0 [] ) 7)
  = Raise OverflowError.
Proof. vm_compute. reflexivity. Qed.

(** C7 on the run where every reply is "Score: 7 out of 10.". *)
Lemma overall_score_mean_witness :
  exists avg,
    avg_score
      (match fst (evaluate_content 4300
                    (Stub.constant (str_of "Score: 7 out of 10."))
                    [] (mkWorld tt principles [] 0 tt)) with
       | Ok rs => rs
       | Raise _ => []
       end) = Ok avg /\
    PyFloat.format_1f avg = str_of "710.0".
Proof.
  destruct (overall_score_mean 4300
              (Stub.constant (str_of "Score: 7 out of 10."))
              [] (mkWorld tt principles [] 0 tt)
              (scores := match fst (evaluate_content 4300
                            (Stub.constant (str_of "Score: 7 out of 10."))
                            [] (mkWorld tt principles [] 0 tt)) with
                         | Ok rs => rs
                         | Raise _ => []
                         end)
              (w' := snd (evaluate_content 4300
                            (Stub.constant (str_of "Score: 7 out of 10."))
                            [] (mkWorld tt principles [] 0 tt))))
    as (avg & H1 & H2).
  - reflexivity.
  - vm_compute. reflexivity.
  - vm_compute. reflexivity.
  - exists avg. split; [exact H1|]. rewrite H2. vm_compute. reflexivity.
Defined.

(** C10 on the generator that returns the prompt and a verdict. *)
Lemma evaluate_content_deterministic_witness :
  fst (evaluate_content 4300 Stub.echo (str_of "Some page text")
         (snd (evaluate_content 4300 Stub.echo (str_of "Some page text")
                 (mkWorld tt principles [] 0 tt))))
  = fst (evaluate_content 4300 Stub.echo (str_of "Some page text")
           (mkWorld tt principles [] 0 tt)).
Proof.
  apply (evaluate_content_deterministic 4300 Stub.echo
           (str_of "Some page text") (mkWorld tt principles [] 0 tt)).
  intros m1 m2 p n. reflexivity.
Defined.

(** ** The further properties on concrete inputs *)

Lemma extract_score_no_digit_witness :
  score_line (str_of "No score line here") = str_of "Score: 0" /\
  extract_score 4300 (str_of "No score line here") = Ok 0%Z.
Proof.
  apply (@extract_score_no_digit 4300 (str_of "No score line here")).
  vm_compute. reflexivity.
Defined.

Lemma echoed_prompt_score_line_witness :
  let p := hd (mkPrinciple [] [] []) principles in
  let continuation := str_of " I rate it 7 out of 10." ++ [10%N]
                        ++ str_of "It reads well." in
  score_line (full_prompt (str_of "Hello world") p ++ continuation)
  = prompt p ++ first_line continuation.
Proof.
  intros p continuation.
  apply (@echoed_prompt_score_line (str_of "Hello world") p continuation).
  - left. reflexivity.
  - vm_compute. reflexivity.
Defined.

Lemma echoed_prompt_scores_ten_witness :
  extract_score 4300
    (full_prompt (str_of "Hello world") (hd (mkPrinciple [] [] []) principles)
       ++ [10%N] ++ str_of "Score: 3")
  = Ok 10%Z.
Proof.
  apply (@echoed_prompt_scores_ten 4300 (str_of "Hello world")
           (hd (mkPrinciple [] [] []) principles)
           ([10%N] ++ str_of "Score: 3")).
  - left. reflexivity.
  - vm_compute. reflexivity.
  - vm_compute. reflexivity.
Defined.

Lemma echoed_content_score_line_witness :
  score_line
    (full_prompt (str_of "Top 5 tips" ++ [10%N] ++ str_of "more text")
       (hd (mkPrinciple [] [] []) principles)
     ++ [10%N] ++ str_of "Score: 9")
  = str_of "Top 5 tips".
Proof.
  apply (@echoed_content_score_line
           (str_of "Top 5 tips" ++ [10%N] ++ str_of "more text")
           (hd (mkPrinciple [] [] []) principles)
           ([10%N] ++ str_of "Score: 9")).
  vm_compute. reflexivity.
Defined.

Lemma evaluate_content_returns_witness :
  exists rs w',
    evaluate_content 4300 Stub.echo
      (str_of "Some page text") (mkWorld tt principles [] 0 tt)
    = (Ok rs, w') /\
    List.length rs
    = List.length (catalog (mkWorld tt principles [] 0 tt)) /\
    map principle_title rs
    = map title (catalog (mkWorld tt principles [] 0 tt)).
Proof.
  apply (@evaluate_content_returns 4300 unit Stub.echo unit
           (str_of "Some page text") (mkWorld tt principles [] 0 tt)
           (fun _ => True)).
  - exact I.
  - intros m p _ Hin. cbn [catalog] in Hin. unfold principles in Hin.
    cbn [In] in Hin.
    repeat (destruct Hin as [<-|Hin];
            [ eexists; exists m, 10%Z;
              split; [reflexivity|]; split; [exact I|];
              vm_compute; reflexivity |]).
    destruct Hin.
Defined.

Lemma evaluate_content_rows_witness :
  Forall2 (fun p r =>
             principle_title r = title p /\
             extract_score 4300
               (full_prompt (str_of "Hello") p ++ [10%N] ++ str_of "Score: 7")
             = Ok (score r) /\
             explanation r
             = strip (full_prompt (str_of "Hello") p ++ [10%N]
                        ++ str_of "Score: 7"))
    (catalog (mkWorld tt principles [] 0 tt))
    (match fst (evaluate_content 4300 Stub.echo (str_of "Hello")
                  (mkWorld tt principles [] 0 tt)) with
     | Ok rs => rs
     | Raise _ => []
     end).
Proof.
  apply (@evaluate_content_rows 4300 unit Stub.echo unit (str_of "Hello")
           (fun p => p ++ [10%N] ++ str_of "Score: 7")
           (mkWorld tt principles [] 0 tt) _
           (snd (evaluate_content 4300 Stub.echo (str_of "Hello")
                   (mkWorld tt principles [] 0 tt)))).
  - intros m p n. reflexivity.
  - vm_compute. reflexivity.
Defined.

Lemma no_evaluation_without_input_witness :
  let ui := mkWidgets Paste_Text (str_of "Some page text") [] false in
  let run := script_run 4300 tt (Stub.constant (str_of "Score: 7"))
               Stub.unreachable Stub.stripped_strings Stub.st_dataframe
               ui (mkWorld tt principles [] 0 tt) in
  calls (snd run) = calls (mkWorld tt principles [] 0 tt) /\
  exists sc, fst run = Ok (mkPage sc None).
Proof.
  intros ui run.
  apply (no_evaluation_without_input 4300 tt
           (Stub.constant (str_of "Score: 7"))
           Stub.unreachable Stub.stripped_strings Stub.st_dataframe
           ui (mkWorld tt principles [] 0 tt)).
  left. reflexivity.
Defined.

Lemma no_request_without_url_witness :
  let ui := mkWidgets Paste_Text (str_of "Some page text") [] true in
  net (snd (script_run 4300 tt (Stub.constant (str_of "Score: 7"))
              Stub.unreachable Stub.stripped_strings Stub.st_dataframe
              ui (mkWorld tt principles [] 0 tt)))
  = net (mkWorld tt principles [] 0 tt).
Proof.
  intros ui.
  apply (no_request_without_url 4300 tt
           (Stub.constant (str_of "Score: 7"))
           Stub.unreachable Stub.stripped_strings Stub.st_dataframe
           ui (mkWorld tt principles [] 0 tt)).
  left. reflexivity.
Defined.

Lemma no_overall_score_on_overflow_witness :
  let ui := mkWidgets Paste_Text (str_of "Some page text") [] true in
  let replies := (49%N :: repeat 48%N 400) :: repeat (str_of "0") 7 in
  let w := mkWorld 0 principles [] 0 tt in
  fst (evaluate_and_show 4300 (Stub.scripted replies) Stub.st_dataframe
         ui (str_of "Some page text") None w)
  = Raise (Exception (str_of "integer out of range for the table")).
Proof.
  intros ui replies w.
  rewrite (@no_overall_score_on_overflow 4300 nat
             (Stub.scripted replies) unit Stub.st_dataframe
             ui (str_of "Some page text") None w
             (match fst (evaluate_content 4300 (Stub.scripted replies)
                           (str_of "Some page text") w) with
              | Ok rs => rs
              | Raise _ => []
              end)
             (snd (evaluate_content 4300 (Stub.scripted replies)
                     (str_of "Some page text") w))).
  - vm_compute. reflexivity.
  - reflexivity.
  - reflexivity.
  - reflexivity.
  - vm_compute. reflexivity.
  - vm_compute. discriminate.
Defined.

(** With a table widget that has no integers of 64 bits or more, a score
    of [2^64] ends the run at line 113, before the mean is computed. *)
Example table_stops_the_run :
  fst (evaluate_and_show 4300
         (Stub.scripted (str_of "18446744073709551616"
                           :: repeat (str_of "0") 7))
         Stub.st_dataframe
         (mkWidgets Paste_Text (str_of "Some page text") [] true)
         (str_of "Some page text") None (mkWorld 0 principles [] 0 tt))
  = Raise (Exception (str_of "integer out of range for the table")).
Proof. vm_compute. reflexivity. Qed.
